(** * SafeScan: the client state container of [EmployeeContext.tsx]

    A shallow embedding of [EmployeeProvider]: the four [useState] cells,
    the six asynchronous operations built on axios, and the
    try / catch / finally discipline every operation follows.  The reply of
    the server is an input of each operation (it is what the [await]
    delivers); everything else is computed. *)

From Stdlib Require Import String List Arith ZArith Lia.
Import ListNotations.
Local Open Scope string_scope.
Local Open Scope list_scope.

(** ** Data model (the TypeScript interfaces) *)

Module EmergencyContact.
Record t := mk { name : string; phone : string; relationship : string }.
End EmergencyContact.

Module Medication.
Record t := mk { name : string; dosage : option string; frequency : option string }.
End Medication.

Module Physician.
Record t := mk { name : string; phone : string; specialty : option string }.
End Physician.

Module Insurance.
Record t := mk { provider : string; memberId : string; groupNumber : option string }.
End Insurance.

(** [interface Employee]; fields marked [?] in the source are options,
    [age: number] is kept as an integer. *)
Module Employee.
Record t := mk {
  _id : string;
  employeeId : string;
  name : string;
  dob : string;
  age : Z;
  bloodGroup : string;
  allergies : list string;
  medications : list Medication.t;
  emergencyContacts : list EmergencyContact.t;
  physician : Physician.t;
  insurance : Insurance.t;
  qrCodeUrl : option string;
  medicalConditions : option (list string);
  notes : option string;
  createdAt : option string;
  updatedAt : option string
}.
End Employee.

(** [Omit<Employee, '_id'>]: the payload of [createEmployee]. *)
Module EmployeeData.
Record t := mk {
  employeeId : string;
  name : string;
  dob : string;
  age : Z;
  bloodGroup : string;
  allergies : list string;
  medications : list Medication.t;
  emergencyContacts : list EmergencyContact.t;
  physician : Physician.t;
  insurance : Insurance.t;
  qrCodeUrl : option string;
  medicalConditions : option (list string);
  notes : option string;
  createdAt : option string;
  updatedAt : option string
}.
End EmployeeData.

(** [Partial<Employee>]: the payload of [updateEmployee]. *)
Module PartialEmployee.
Record t := mk {
  _id : option string;
  employeeId : option string;
  name : option string;
  dob : option string;
  age : option Z;
  bloodGroup : option string;
  allergies : option (list string);
  medications : option (list Medication.t);
  emergencyContacts : option (list EmergencyContact.t);
  physician : option Physician.t;
  insurance : option Insurance.t;
  qrCodeUrl : option string;
  medicalConditions : option (list string);
  notes : option string;
  createdAt : option string;
  updatedAt : option string
}.
End PartialEmployee.

(** ** The HTTP boundary *)

(** Success bodies are [{ data: <payload> }]. *)
Module Envelope.
Record t (T : Type) := mk { data : T }.
Arguments mk {T} _.
Arguments data {T} _.
End Envelope.

(** Failure bodies are [{ message: <string> }]; the field may be missing. *)
Module MessageBody.
Record t := mk { message : option string }.
End MessageBody.

(** The payload of [GET /employees/:id/qr]. *)
Module QrPayload.
Record t := mk { qrCodeDataUrl : string }.
End QrPayload.

(** An axios response; [data] is [None] when the body is [null] or
    [undefined], so that reading a property of it throws. *)
Module AxiosResponse.
Record t (B : Type) := mk { data : option B }.
Arguments mk {B} _.
Arguments data {B} _.
End AxiosResponse.

(** What a [catch (error: any)] clause of this file can receive. *)
Inductive Thrown : Type :=
| AxiosError (response : option (AxiosResponse.t MessageBody.t))
| TypeError
| Error (message : string).

(** What awaiting an axios call delivers. *)
Inductive AxiosResult (B : Type) : Type :=
| Fulfilled (response : AxiosResponse.t B)
| Rejected (response : option (AxiosResponse.t MessageBody.t)).
Arguments Fulfilled {B} _.
Arguments Rejected {B} _.

Inductive Method : Type := GET | POST | PUT | DELETE.

Inductive RequestBody : Type :=
| NoBody
| CreateBody (employeeData : EmployeeData.t)
| UpdateBody (employeeData : PartialEmployee.t).

(** ** The state cells and the effects on them *)

Record State : Type := mkState {
  employees : list Employee.t;
  currentEmployee : option Employee.t;
  loading : bool;
  error : option string
}.

(** [useState] initial values. *)
Definition initialState : State :=
  {| employees := []; currentEmployee := None; loading := false; error := None |}.

(** The observable steps of an operation, in program order. *)
Inductive Event : Type :=
| SetLoading (b : bool)
| SetError (e : option string)
| SetEmployees (next : list Employee.t)
| SetCurrentEmployee (next : option Employee.t)
| Request (m : Method) (url : string) (body : RequestBody).

(** React's [SetStateAction<S>]: a value or an updater of the previous one. *)
Inductive SetStateAction (S : Type) : Type :=
| Value (v : S)
| Updater (f : S -> S).
Arguments Value {S} _.
Arguments Updater {S} _.

Definition resolve {S : Type} (a : SetStateAction S) (prev : S) : S :=
  match a with
  | Value v => v
  | Updater f => f prev
  end.

Inductive Completion (A : Type) : Type :=
| Return (a : A)
| Throw (t : Thrown).
Arguments Return {A} _.
Arguments Throw {A} _.

Record Run (A : Type) : Type := mkRun {
  completion : Completion A;
  final : State;
  trace : list Event
}.
Arguments mkRun {A} _ _ _.
Arguments completion {A} _.
Arguments final {A} _.
Arguments trace {A} _.

(** State, exceptions and a log: a throw keeps the state written so far. *)
Definition M (A : Type) : Type := State -> Run A.

Definition ret {A : Type} (a : A) : M A :=
  fun s => mkRun (Return a) s [].

Definition throw {A : Type} (t : Thrown) : M A :=
  fun s => mkRun (Throw t) s [].

Definition bind {A B : Type} (m : M A) (k : A -> M B) : M B :=
  fun s =>
    let r := m s in
    match completion r with
    | Return a =>
        let r' := k a (final r) in
        mkRun (completion r') (final r') (trace r ++ trace r')
    | Throw t => mkRun (Throw t) (final r) (trace r)
    end.

Declare Scope js_scope.
Delimit Scope js_scope with js.
Notation "x <- c1 ;; c2" := (bind c1 (fun x => c2))
  (at level 61, c1 at next level, right associativity) : js_scope.
Notation "c1 ;; c2" := (bind c1 (fun _ => c2))
  (at level 61, right associativity) : js_scope.
Local Open Scope js_scope.

(** [try { body } catch (error) { handler } finally { fin }]: the handler
    runs on a throw of the body, [fin] runs last in every case, and an
    abrupt completion of [fin] replaces the one before it. *)
Definition try_catch_finally {A : Type}
    (body : M A) (handler : Thrown -> M A) (fin : M unit) : M A :=
  fun s =>
    let r := body s in
    let r1 :=
      match completion r with
      | Return a => r
      | Throw t =>
          let h := handler t (final r) in
          mkRun (completion h) (final h) (trace r ++ trace h)
      end in
    let f := fin (final r1) in
    mkRun
      match completion f with
      | Return _ => completion r1
      | Throw t => Throw t
      end
      (final f) (trace r1 ++ trace f).

Definition setLoading (b : bool) : M unit :=
  fun s =>
    mkRun (Return tt)
      {| employees := employees s; currentEmployee := currentEmployee s;
         loading := b; error := error s |}
      [SetLoading b].

Definition setError (e : option string) : M unit :=
  fun s =>
    mkRun (Return tt)
      {| employees := employees s; currentEmployee := currentEmployee s;
         loading := loading s; error := e |}
      [SetError e].

Definition setEmployees (a : SetStateAction (list Employee.t)) : M unit :=
  fun s =>
    let next := resolve a (employees s) in
    mkRun (Return tt)
      {| employees := next; currentEmployee := currentEmployee s;
         loading := loading s; error := error s |}
      [SetEmployees next].

Definition setCurrentEmployee (a : SetStateAction (option Employee.t)) : M unit :=
  fun s =>
    let next := resolve a (currentEmployee s) in
    mkRun (Return tt)
      {| employees := employees s; currentEmployee := next;
         loading := loading s; error := error s |}
      [SetCurrentEmployee next].

(** [await axios.<method>(url, body)] with the reply the server gives. *)
Definition axios {B : Type} (m : Method) (url : string) (body : RequestBody)
    (reply : AxiosResult B) : M (AxiosResponse.t B) :=
  fun s =>
    mkRun
      match reply with
      | Fulfilled response => Return response
      | Rejected response => Throw (AxiosError response)
      end
      s [Request m url body].

(** [response.data.<field>]: a [TypeError] when the body is null. *)
Definition response_data {B : Type} (response : AxiosResponse.t B) : M B :=
  match AxiosResponse.data response with
  | Some b => ret b
  | None => throw TypeError
  end.

(** [error.response?.data?.message] *)
Definition response_data_message (error : Thrown) : option string :=
  match error with
  | AxiosError (Some response) =>
      match AxiosResponse.data response with
      | Some body => MessageBody.message body
      | None => None
      end
  | AxiosError None => None
  | TypeError => None
  | Error _ => None
  end.

(** [v || fallback] on an optional string: [undefined] and [''] are falsy. *)
Definition or_fallback (v : option string) (fallback : string) : string :=
  match v with
  | Some EmptyString => fallback
  | Some s => s
  | None => fallback
  end.

(** ** The six operations of [EmployeeProvider] *)

Definition fetchEmployees
    (reply : AxiosResult (Envelope.t (list Employee.t))) : M unit :=
  try_catch_finally
    (setLoading true ;;
     setError None ;;
     response <- axios GET "/employees" NoBody reply ;;
     body <- response_data response ;;
     setEmployees (Value (Envelope.data body)))
    (fun error =>
       setError (Some (or_fallback (response_data_message error)
                                   "Failed to fetch employees")))
    (setLoading false).

Definition fetchEmployee (id : string)
    (reply : AxiosResult (Envelope.t Employee.t)) : M Employee.t :=
  try_catch_finally
    (setLoading true ;;
     setError None ;;
     response <- axios GET ("/employees/" ++ id) NoBody reply ;;
     body <- response_data response ;;
     let employee := Envelope.data body in
     setCurrentEmployee (Value (Some employee)) ;;
     ret employee)
    (fun error =>
       let errorMessage :=
         or_fallback (response_data_message error) "Failed to fetch employee" in
       setError (Some errorMessage) ;;
       throw (Error errorMessage))
    (setLoading false).

Definition createEmployee (employeeData : EmployeeData.t)
    (reply : AxiosResult (Envelope.t Employee.t)) : M Employee.t :=
  try_catch_finally
    (setLoading true ;;
     setError None ;;
     response <- axios POST "/employees" (CreateBody employeeData) reply ;;
     body <- response_data response ;;
     let newEmployee := Envelope.data body in
     setEmployees (Updater (fun prev => newEmployee :: prev)) ;;
     ret newEmployee)
    (fun error =>
       let errorMessage :=
         or_fallback (response_data_message error) "Failed to create employee" in
       setError (Some errorMessage) ;;
       throw (Error errorMessage))
    (setLoading false).

Definition updateEmployee (id : string) (employeeData : PartialEmployee.t)
    (reply : AxiosResult (Envelope.t Employee.t)) : M Employee.t :=
  try_catch_finally
    (setLoading true ;;
     setError None ;;
     response <- axios PUT ("/employees/" ++ id) (UpdateBody employeeData) reply ;;
     body <- response_data response ;;
     let updatedEmployee := Envelope.data body in
     setEmployees
       (Updater (fun prev =>
          map (fun emp => if Employee._id emp =? id then updatedEmployee else emp)
              prev)) ;;
     ret updatedEmployee)
    (fun error =>
       let errorMessage :=
         or_fallback (response_data_message error) "Failed to update employee" in
       setError (Some errorMessage) ;;
       throw (Error errorMessage))
    (setLoading false).

Definition deleteEmployee (id : string)
    (reply : AxiosResult MessageBody.t) : M unit :=
  try_catch_finally
    (setLoading true ;;
     setError None ;;
     _ <- axios DELETE ("/employees/" ++ id) NoBody reply ;;
     setEmployees
       (Updater (fun prev =>
          filter (fun emp => negb (Employee._id emp =? id)) prev)))
    (fun error =>
       let errorMessage :=
         or_fallback (response_data_message error) "Failed to delete employee" in
       setError (Some errorMessage) ;;
       throw (Error errorMessage))
    (setLoading false).

Definition generateQRCode (id : string)
    (reply : AxiosResult (Envelope.t QrPayload.t)) : M string :=
  try_catch_finally
    (setLoading true ;;
     setError None ;;
     response <- axios GET ("/employees/" ++ id ++ "/qr") NoBody reply ;;
     body <- response_data response ;;
     ret (QrPayload.qrCodeDataUrl (Envelope.data body)))
    (fun error =>
       let errorMessage :=
         or_fallback (response_data_message error) "Failed to generate QR code" in
       setError (Some errorMessage) ;;
       throw (Error errorMessage))
    (setLoading false).

(** ** One type for "an operation of the context" *)

(** A call of one of the members of [EmployeeContextType], together with
    the reply its request receives. *)
Inductive Call : Type :=
| FetchEmployees (reply : AxiosResult (Envelope.t (list Employee.t)))
| FetchEmployee (id : string) (reply : AxiosResult (Envelope.t Employee.t))
| CreateEmployee (employeeData : EmployeeData.t)
    (reply : AxiosResult (Envelope.t Employee.t))
| UpdateEmployee (id : string) (employeeData : PartialEmployee.t)
    (reply : AxiosResult (Envelope.t Employee.t))
| DeleteEmployee (id : string) (reply : AxiosResult MessageBody.t)
| GenerateQRCode (id : string) (reply : AxiosResult (Envelope.t QrPayload.t)).

(** What the promises resolve with: [void], an [Employee] or a [string]. *)
Inductive Resolved : Type :=
| Void
| AnEmployee (e : Employee.t)
| AString (s : string).

Definition settle {A : Type} (f : A -> Resolved) (m : M A) : M Resolved :=
  fun s =>
    let r := m s in
    mkRun
      match completion r with
      | Return a => Return (f a)
      | Throw t => Throw t
      end
      (final r) (trace r).

Definition invoke (c : Call) : M Resolved :=
  match c with
  | FetchEmployees reply => settle (fun _ => Void) (fetchEmployees reply)
  | FetchEmployee id reply => settle AnEmployee (fetchEmployee id reply)
  | CreateEmployee d reply => settle AnEmployee (createEmployee d reply)
  | UpdateEmployee id d reply => settle AnEmployee (updateEmployee id d reply)
  | DeleteEmployee id reply => settle (fun _ => Void) (deleteEmployee id reply)
  | GenerateQRCode id reply => settle AString (generateQRCode id reply)
  end.

Definition is_fetchEmployees (c : Call) : bool :=
  match c with
  | FetchEmployees _ => true
  | _ => false
  end.

(** The string literal on the right of [||] in each catch block. *)
Definition fallback (c : Call) : string :=
  match c with
  | FetchEmployees _ => "Failed to fetch employees"
  | FetchEmployee _ _ => "Failed to fetch employee"
  | CreateEmployee _ _ => "Failed to create employee"
  | UpdateEmployee _ _ _ => "Failed to update employee"
  | DeleteEmployee _ _ => "Failed to delete employee"
  | GenerateQRCode _ _ => "Failed to generate QR code"
  end.

(** The value the try block of a call throws, if it throws: the axios
    rejection, or the [TypeError] of reading [.data] off a null body.
    [deleteEmployee] never reads the body. *)
Definition unreadable {B : Type} (reply : AxiosResult B) : option Thrown :=
  match reply with
  | Rejected response => Some (AxiosError response)
  | Fulfilled response =>
      match AxiosResponse.data response with
      | None => Some TypeError
      | Some _ => None
      end
  end.

Definition rejection {B : Type} (reply : AxiosResult B) : option Thrown :=
  match reply with
  | Rejected response => Some (AxiosError response)
  | Fulfilled _ => None
  end.

Definition caught (c : Call) : option Thrown :=
  match c with
  | FetchEmployees reply => unreadable reply
  | FetchEmployee _ reply => unreadable reply
  | CreateEmployee _ reply => unreadable reply
  | UpdateEmployee _ _ reply => unreadable reply
  | DeleteEmployee _ reply => rejection reply
  | GenerateQRCode _ reply => unreadable reply
  end.

(** A run fails when its catch block is entered. *)
Definition fails (c : Call) : bool :=
  match caught c with
  | Some _ => true
  | None => false
  end.

(** Number of cached entries carrying the identifier [id], with the
    comparison the source uses ([emp._id === id]). *)
Definition occurrences (id : string) (l : list Employee.t) : nat :=
  length (filter (fun emp => Employee._id emp =? id) l).

Definition is_SetLoading (e : Event) : bool :=
  match e with
  | SetLoading _ => true
  | _ => false
  end.

Definition is_Request (e : Event) : bool :=
  match e with
  | Request _ _ _ => true
  | _ => false
  end.

(** ** Sample data *)

Definition sampleEmployee (id name : string) : Employee.t :=
  {| Employee._id := id;
     Employee.employeeId := "E-" ++ id;
     Employee.name := name;
     Employee.dob := "2000-01-01";
     Employee.age := 25%Z;
     Employee.bloodGroup := "O+";
     Employee.allergies := [];
     Employee.medications := [];
     Employee.emergencyContacts := [];
     Employee.physician := Physician.mk "Dr. Rao" "100" None;
     Employee.insurance := Insurance.mk "Acme" "M1" None;
     Employee.qrCodeUrl := None;
     Employee.medicalConditions := None;
     Employee.notes := None;
     Employee.createdAt := None;
     Employee.updatedAt := None |}.

Definition sampleData (name : string) : EmployeeData.t :=
  {| EmployeeData.employeeId := "E-new";
     EmployeeData.name := name;
     EmployeeData.dob := "2000-01-01";
     EmployeeData.age := 25%Z;
     EmployeeData.bloodGroup := "O+";
     EmployeeData.allergies := [];
     EmployeeData.medications := [];
     EmployeeData.emergencyContacts := [];
     EmployeeData.physician := Physician.mk "Dr. Rao" "100" None;
     EmployeeData.insurance := Insurance.mk "Acme" "M1" None;
     EmployeeData.qrCodeUrl := None;
     EmployeeData.medicalConditions := None;
     EmployeeData.notes := None;
     EmployeeData.createdAt := None;
     EmployeeData.updatedAt := None |}.

Definition emptyPatch : PartialEmployee.t :=
  PartialEmployee.mk None None None None None None None None
                     None None None None None None None None.

(** A rejection whose body is [{ message: msg }]. *)
Definition rejectedWith {B : Type} (msg : string) : AxiosResult B :=
  Rejected (Some (AxiosResponse.mk (Some (MessageBody.mk (Some msg))))).

(** A fulfilled reply whose body is [{ data: payload }]. *)
Definition fulfilledWith {T : Type} (payload : T) : AxiosResult (Envelope.t T) :=
  Fulfilled (AxiosResponse.mk (Some (Envelope.mk payload))).

Definition cacheOf (l : list Employee.t) (cur : option Employee.t) : State :=
  {| employees := l; currentEmployee := cur; loading := false; error := None |}.

(** The [message] field of the body the catch block looks at, if any. *)
Definition body_message (c : Call) : option string :=
  match caught c with
  | Some t => response_data_message t
  | None => None
  end.

(** ** The context value and the [useEmployee] hook *)

(** [interface EmployeeContextType]: the four cells and the six operations
    (each one taking, as everywhere here, the reply its request receives). *)
Module EmployeeContextType.
Record t := mk {
  employees : list Employee.t;
  currentEmployee : option Employee.t;
  fetchEmployees : AxiosResult (Envelope.t (list Employee.t)) -> M unit;
  fetchEmployee : string -> AxiosResult (Envelope.t Employee.t) -> M Employee.t;
  createEmployee :
    EmployeeData.t -> AxiosResult (Envelope.t Employee.t) -> M Employee.t;
  updateEmployee :
    string -> PartialEmployee.t -> AxiosResult (Envelope.t Employee.t) ->
    M Employee.t;
  deleteEmployee : string -> AxiosResult MessageBody.t -> M unit;
  generateQRCode : string -> AxiosResult (Envelope.t QrPayload.t) -> M string;
  loading : bool;
  error : option string
}.
End EmployeeContextType.

(** [const value: EmployeeContextType = { ... }] of a provider whose cells
    hold [s]. *)
Definition value (s : State) : EmployeeContextType.t :=
  {| EmployeeContextType.employees := employees s;
     EmployeeContextType.currentEmployee := currentEmployee s;
     EmployeeContextType.fetchEmployees := fetchEmployees;
     EmployeeContextType.fetchEmployee := fetchEmployee;
     EmployeeContextType.createEmployee := createEmployee;
     EmployeeContextType.updateEmployee := updateEmployee;
     EmployeeContextType.deleteEmployee := deleteEmployee;
     EmployeeContextType.generateQRCode := generateQRCode;
     EmployeeContextType.loading := loading s;
     EmployeeContextType.error := error s |}.

(** [useContext(EmployeeContext)]: the value of the enclosing provider, or
    the [undefined] the context was created with. *)
Definition useContext (provider : option State) : option EmployeeContextType.t :=
  match provider with
  | Some s => Some (value s)
  | None => None
  end.

Definition useEmployee (provider : option State) : Completion EmployeeContextType.t :=
  let context := useContext provider in
  match context with
  | None => Throw (Error "useEmployee must be used within an EmployeeProvider")
  | Some context => Return context
  end.

(** ** The two halves of an operation, around its [await] *)

(** Calling [axios.<method>(url, body)] sends the request ... *)
Definition send (m : Method) (url : string) (body : RequestBody) : M unit :=
  fun s => mkRun (Return tt) s [Request m url body].

(** ... and the [await] later delivers the reply, or throws the rejection. *)
Definition deliver {B : Type} (reply : AxiosResult B) : M (AxiosResponse.t B) :=
  fun s =>
    mkRun
      match reply with
      | Fulfilled response => Return response
      | Rejected response => Throw (AxiosError response)
      end
      s [].

(** What runs synchronously when the operation is called: the statements
    of the try block up to the [await]. *)
Definition started (c : Call) : M unit :=
  match c with
  | FetchEmployees _ =>
      setLoading true ;; setError None ;; send GET "/employees" NoBody
  | FetchEmployee id _ =>
      setLoading true ;; setError None ;; send GET ("/employees/" ++ id) NoBody
  | CreateEmployee employeeData _ =>
      setLoading true ;; setError None ;;
      send POST "/employees" (CreateBody employeeData)
  | UpdateEmployee id employeeData _ =>
      setLoading true ;; setError None ;;
      send PUT ("/employees/" ++ id) (UpdateBody employeeData)
  | DeleteEmployee id _ =>
      setLoading true ;; setError None ;;
      send DELETE ("/employees/" ++ id) NoBody
  | GenerateQRCode id _ =>
      setLoading true ;; setError None ;;
      send GET ("/employees/" ++ id ++ "/qr") NoBody
  end.

(** What runs when the reply arrives: the rest of the try block, the catch
    block if that rest throws, and the finally block.  It runs on the state
    of that moment, which other operations may have written meanwhile. *)
Definition settled (c : Call) : M Resolved :=
  match c with
  | FetchEmployees reply =>
      settle (fun _ => Void)
        (try_catch_finally
           (response <- deliver reply ;;
            body <- response_data response ;;
            setEmployees (Value (Envelope.data body)))
           (fun error =>
              setError (Some (or_fallback (response_data_message error)
                                          "Failed to fetch employees")))
           (setLoading false))
  | FetchEmployee id reply =>
      settle AnEmployee
        (try_catch_finally
           (response <- deliver reply ;;
            body <- response_data response ;;
            let employee := Envelope.data body in
            setCurrentEmployee (Value (Some employee)) ;;
            ret employee)
           (fun error =>
              let errorMessage :=
                or_fallback (response_data_message error)
                            "Failed to fetch employee" in
              setError (Some errorMessage) ;;
              throw (Error errorMessage))
           (setLoading false))
  | CreateEmployee employeeData reply =>
      settle AnEmployee
        (try_catch_finally
           (response <- deliver reply ;;
            body <- response_data response ;;
            let newEmployee := Envelope.data body in
            setEmployees (Updater (fun prev => newEmployee :: prev)) ;;
            ret newEmployee)
           (fun error =>
              let errorMessage :=
                or_fallback (response_data_message error)
                            "Failed to create employee" in
              setError (Some errorMessage) ;;
              throw (Error errorMessage))
           (setLoading false))
  | UpdateEmployee id employeeData reply =>
      settle AnEmployee
        (try_catch_finally
           (response <- deliver reply ;;
            body <- response_data response ;;
            let updatedEmployee := Envelope.data body in
            setEmployees
              (Updater (fun prev =>
                 map (fun emp =>
                        if Employee._id emp =? id then updatedEmployee else emp)
                     prev)) ;;
            ret updatedEmployee)
           (fun error =>
              let errorMessage :=
                or_fallback (response_data_message error)
                            "Failed to update employee" in
              setError (Some errorMessage) ;;
              throw (Error errorMessage))
           (setLoading false))
  | DeleteEmployee id reply =>
      settle (fun _ => Void)
        (try_catch_finally
           (_ <- deliver reply ;;
            setEmployees
              (Updater (fun prev =>
                 filter (fun emp => negb (Employee._id emp =? id)) prev)))
           (fun error =>
              let errorMessage :=
                or_fallback (response_data_message error)
                            "Failed to delete employee" in
              setError (Some errorMessage) ;;
              throw (Error errorMessage))
           (setLoading false))
  | GenerateQRCode id reply =>
      settle AString
        (try_catch_finally
           (response <- deliver reply ;;
            body <- response_data response ;;
            ret (QrPayload.qrCodeDataUrl (Envelope.data body)))
           (fun error =>
              let errorMessage :=
                or_fallback (response_data_message error)
                            "Failed to generate QR code" in
              setError (Some errorMessage) ;;
              throw (Error errorMessage))
           (setLoading false))
  end.

(** One scheduling step of the event loop: an operation is called, or the
    reply of a pending one arrives. *)
Inductive Step : Type :=
| Begins (c : Call)
| Settles (c : Call).

Definition step (st : Step) (s : State) : State :=
  match st with
  | Begins c => final (started c s)
  | Settles c => final (settled c s)
  end.

(** The cells after a sequence of steps. *)
Definition after (steps : list Step) (s : State) : State :=
  fold_left (fun s st => step st s) steps s.

(** Running a call to completion, then the next one. *)
Definition thenInvoke (c : Call) (s : State) : State := final (invoke c s).

(** The request an operation issues: the third event of its trace. *)
Definition requestOf {A : Type} (r : Run A) : option Event := nth_error (trace r) 2.

Definition is_FetchEmployee (c : Call) : bool :=
  match c with
  | FetchEmployee _ _ => true
  | _ => false
  end.

(** ** What the cells are at each point of a run *)

(** The write an event stands for, on the four cells. *)
Definition apply_event (e : Event) (s : State) : State :=
  match e with
  | SetLoading b =>
      {| employees := employees s; currentEmployee := currentEmployee s;
         loading := b; error := error s |}
  | SetError msg =>
      {| employees := employees s; currentEmployee := currentEmployee s;
         loading := loading s; error := msg |}
  | SetEmployees next =>
      {| employees := next; currentEmployee := currentEmployee s;
         loading := loading s; error := error s |}
  | SetCurrentEmployee next =>
      {| employees := employees s; currentEmployee := next;
         loading := loading s; error := error s |}
  | Request _ _ _ => s
  end.

Definition replay (es : list Event) (s : State) : State :=
  fold_left (fun s e => apply_event e s) es s.

(** The cells at every point strictly inside a run: after its first
    event, after its second, ..., before its last. *)
Definition inner_states (es : list Event) (s : State) : list State :=
  map (fun n => replay (firstn n es) s) (seq 1 (length es - 1)).

(** * Properties *)

(** ** Generic facts *)

Ltac by_reply reply :=
  destruct reply as [[[?body|]]|?response]; cbn in *.

Ltac by_call c :=
  destruct c as [reply|?id reply|?d reply|?id ?d reply|?id reply|?id reply];
  by_reply reply.

Lemma or_fallback_nonempty (v : option string) (fb : string) :
  fb <> "" -> or_fallback v fb <> "".
Proof.
  intros Hfb. destruct v as [[|a m]|]; cbn; try assumption. discriminate.
Qed.

Lemma or_fallback_present (m fb : string) :
  m <> "" -> or_fallback (Some m) fb = m.
Proof. destruct m; [congruence | reflexivity]. Qed.

Lemma or_fallback_absent (v : option string) (fb : string) :
  v = None \/ v = Some "" -> or_fallback v fb = fb.
Proof. intros [-> | ->]; reflexivity. Qed.

Lemma fallback_nonempty (c : Call) : fallback c <> "".
Proof. destruct c; discriminate. Qed.

(** [fails] is the right predicate: a call fails exactly when its run
    executes the [setError(<message>)] of a catch block. *)
Lemma fails_iff_catch_block_ran (c : Call) (s : State) :
  fails c = true <->
  exists msg, In (SetError (Some msg)) (trace (invoke c s)).
Proof.
  split.
  - intros Hf. exists (or_fallback (body_message c) (fallback c)).
    by_call c; try discriminate Hf; auto 6.
  - intros [msg Hin].
    by_call c; try reflexivity;
      repeat (destruct Hin as [Hin|Hin]; [discriminate Hin|]); destruct Hin.
Qed.

(** On a failing run, the thrown value of the try block is what [caught]
    says, and the error slot ends up holding the catch block's message. *)
Lemma failing_run_error_slot (c : Call) (s : State) :
  fails c = true ->
  error (final (invoke c s)) = Some (or_fallback (body_message c) (fallback c)).
Proof. intros Hf. by_call c; try discriminate Hf; reflexivity. Qed.

Lemma occurrences_cons (id : string) (e : Employee.t) (l : list Employee.t) :
  occurrences id (e :: l) =
  (if Employee._id e =? id then 1 else 0) + occurrences id l.
Proof. unfold occurrences. cbn. destruct (Employee._id e =? id); reflexivity. Qed.

Lemma filter_idempotent {A : Type} (p : A -> bool) (l : list A) :
  filter p (filter p l) = filter p l.
Proof.
  induction l as [|a l IH]; cbn; [reflexivity|].
  destruct (p a) eqn:Hp; cbn; rewrite ?Hp, IH; reflexivity.
Qed.

Lemma occurrences_after_filter (id : string) (l : list Employee.t) :
  occurrences id (filter (fun emp => negb (Employee._id emp =? id)) l) = 0.
Proof.
  induction l as [|e l IH]; [reflexivity|]. cbn [filter].
  destruct (Employee._id e =? id) eqn:He; cbn [negb]; [exact IH|].
  rewrite occurrences_cons, He. exact IH.
Qed.

Lemma length_filter_occurrences (id : string) (l : list Employee.t) :
  length (filter (fun emp => negb (Employee._id emp =? id)) l)
  + occurrences id l = length l.
Proof.
  induction l as [|e l IH]; [reflexivity|].
  rewrite occurrences_cons. cbn.
  destruct (Employee._id e =? id); cbn; lia.
Qed.

(** When exactly one entry carries [id], filtering takes out that entry. *)
Lemma filter_single_occurrence (id : string) (l : list Employee.t) :
  occurrences id l = 1 ->
  exists l1 e l2,
    l = l1 ++ e :: l2 /\ Employee._id e = id /\
    filter (fun emp => negb (Employee._id emp =? id)) l = l1 ++ l2.
Proof.
  induction l as [|a l IH]; [discriminate|].
  rewrite occurrences_cons. cbn [filter].
  destruct (Employee._id a =? id) eqn:Ha; cbn [negb]; intros H.
  - exists [], a, l. repeat split.
    + now apply String.eqb_eq.
    + cbn. assert (H0 : occurrences id l = 0) by lia.
      pose proof (length_filter_occurrences id l) as Hlen.
      rewrite H0, Nat.add_0_r in Hlen.
      clear -Hlen. induction l as [|b l IHl]; [reflexivity|].
      cbn in *. destruct (negb (Employee._id b =? id)); cbn in *.
      * f_equal. apply IHl. lia.
      * pose proof (filter_length_le
          (fun emp => negb (Employee._id emp =? id)) l). lia.
  - destruct (IH H) as (l1 & e & l2 & -> & He & Hf).
    exists (a :: l1), e, l2. repeat split; [assumption|].
    cbn. now rewrite Hf.
Qed.

(** ** Failure policy *)

(** [fetchEmployees] resolves on every reply, also when the body of a
    fulfilled reply is null and reading it throws inside the try block. *)
Lemma fetchEmployees_always_resolves
    (reply : AxiosResult (Envelope.t (list Employee.t))) (s : State) :
  completion (fetchEmployees reply s) = Return tt.
Proof. by_reply reply; reflexivity. Qed.

(** C1. When the request of [fetchEmployees] rejects, the catch block
    stores a message in the error slot (after the request, before the
    final [setLoading(false)]) and the operation returns normally: the
    promise resolves, nothing is re-thrown. *)
Theorem fetchEmployees_failure_is_silent :
  forall (response : option (AxiosResponse.t MessageBody.t)) (s : State),
    let r := fetchEmployees (Rejected response) s in
    let msg := or_fallback (response_data_message (AxiosError response))
                           "Failed to fetch employees" in
    completion r = Return tt /\
    error (final r) = Some msg /\
    msg <> "" /\
    trace r = [SetLoading true; SetError None;
               Request GET "/employees" NoBody;
               SetError (Some msg); SetLoading false].
Proof.
  intros response s r msg. repeat split.
  apply or_fallback_nonempty. discriminate.
Qed.

(** C2 as stated fails: a rejection whose body carries the message [""]
    has its message field present, yet the stored and thrown message is the
    fallback literal, because [||] treats the empty string as absent. *)
Lemma empty_message_is_replaced_by_fallback :
  let c := FetchEmployee "x1" (rejectedWith "") in
  let r := invoke c initialState in
  is_fetchEmployees c = false /\
  fails c = true /\
  body_message c = Some "" /\
  error (final r) = Some "Failed to fetch employee" /\
  completion r = Throw (Error "Failed to fetch employee") /\
  ~ (error (final r) = Some "" /\ completion r = Throw (Error "")).
Proof.
  cbn. repeat split. intros [H _]. discriminate H.
Qed.

(** C2, amended. For every operation other than [fetchEmployees] and every
    failing run, the message is the body's [message] field when that field
    is present and non-empty, and the operation's fallback literal
    otherwise; that message is what the error slot holds afterwards and
    what the [Error] rejecting the promise carries. *)
Theorem failure_policy_of_rejecting_operations :
  forall (c : Call) (s : State),
    is_fetchEmployees c = false ->
    fails c = true ->
    let r := invoke c s in
    let m := or_fallback (body_message c) (fallback c) in
    error (final r) = Some m /\
    completion r = Throw (Error m) /\
    (forall msg, body_message c = Some msg -> msg <> "" -> m = msg) /\
    (body_message c = None \/ body_message c = Some "" -> m = fallback c).
Proof.
  intros c s Hop Hf r m. split; [|split; [|split]].
  - apply failing_run_error_slot, Hf.
  - subst r m. by_call c; try discriminate Hf; try discriminate Hop; reflexivity.
  - intros msg Hb Hne. subst m. rewrite Hb. now apply or_fallback_present.
  - apply or_fallback_absent.
Qed.

Lemma failure_policy_of_rejecting_operations_witness :
  let c := FetchEmployee "x1" (rejectedWith "Employee not found") in
  let r := invoke c initialState in
  error (final r) = Some "Employee not found" /\
  completion r = Throw (Error "Employee not found").
Proof.
  intros c r.
  pose proof (failure_policy_of_rejecting_operations c initialState
                eq_refl eq_refl) as H.
  cbn in H. destruct H as (He & Hc & _). split; assumption.
Defined.

(** ** The cached list *)

(** C3 as stated fails: deleting an identifier no cached entry carries
    succeeds and removes nothing, so there is no entry with that identifier
    whose removal gives the new list. *)
Lemma deleteEmployee_of_absent_id_removes_nothing :
  let s := cacheOf [sampleEmployee "a" "A"] None in
  let r := deleteEmployee "zz" (Fulfilled (AxiosResponse.mk None)) s in
  completion r = Return tt /\
  employees (final r) = employees s /\
  ~ (exists l1 e l2,
       employees s = l1 ++ e :: l2 /\ Employee._id e = "zz" /\
       employees (final r) = l1 ++ l2).
Proof.
  cbn. repeat split.
  intros (l1 & e & l2 & Hs & Hid & _).
  destruct l1 as [|a [|b l1]]; cbn in Hs.
  - injection Hs as <- _. discriminate Hid.
  - destruct l2; discriminate Hs.
  - discriminate Hs.
Qed.

(** C3, amended. A successful [deleteEmployee(id)] removes every cached
    entry whose identifier is [id] (none when there is none, exactly one
    when exactly one entry carries it) and keeps the entries with another
    identifier, all of them and in their original relative order. *)
Theorem deleteEmployee_filters_by_id :
  forall (id : string) (response : AxiosResponse.t MessageBody.t) (s : State),
    let r := deleteEmployee id (Fulfilled response) s in
    let others := fun emp => negb (Employee._id emp =? id) in
    completion r = Return tt /\
    employees (final r) = filter others (employees s) /\
    filter others (employees (final r)) = filter others (employees s) /\
    occurrences id (employees (final r)) = 0 /\
    length (employees (final r)) + occurrences id (employees s)
      = length (employees s) /\
    (occurrences id (employees s) = 1 ->
     exists l1 e l2,
       employees s = l1 ++ e :: l2 /\ Employee._id e = id /\
       employees (final r) = l1 ++ l2).
Proof.
  intros id response s r others. cbn.
  split; [reflexivity|]. split; [reflexivity|].
  split; [apply filter_idempotent|].
  split; [apply occurrences_after_filter|].
  split; [apply length_filter_occurrences|].
  apply filter_single_occurrence.
Qed.

Lemma deleteEmployee_filters_by_id_witness :
  let l := [sampleEmployee "a" "A"; sampleEmployee "b" "B"; sampleEmployee "c" "C"] in
  let r := deleteEmployee "b" (Fulfilled (AxiosResponse.mk None)) (cacheOf l None) in
  exists l1 e l2,
    l = l1 ++ e :: l2 /\ Employee._id e = "b" /\ employees (final r) = l1 ++ l2.
Proof.
  intros l r.
  apply (deleteEmployee_filters_by_id "b" (AxiosResponse.mk None) (cacheOf l None)).
  reflexivity.
Defined.

(** C4 as stated fails: when the cache already holds the record the server
    returns, the record is first afterwards but appears twice. *)
Lemma createEmployee_can_duplicate :
  let e := sampleEmployee "x1" "A" in
  let s := cacheOf [e] None in
  let r := createEmployee (sampleData "A") (fulfilledWith e) s in
  completion r = Return e /\
  employees (final r) = [e; e] /\
  occurrences (Employee._id e) (employees (final r)) = 2 /\
  occurrences (Employee._id e) (employees (final r)) <> 1.
Proof.
  cbn. repeat split. discriminate.
Qed.

(** C4, amended. A successful [createEmployee(data)] prepends the record of
    the response envelope: it is the first element and the previously
    cached entries follow unchanged and in order; its identifier occurs
    once more than before, hence exactly once when no cached entry
    carried it. *)
Theorem createEmployee_prepends :
  forall (employeeData : EmployeeData.t) (newEmployee : Employee.t) (s : State),
    let r := createEmployee employeeData (fulfilledWith newEmployee) s in
    let id := Employee._id newEmployee in
    completion r = Return newEmployee /\
    employees (final r) = newEmployee :: employees s /\
    hd_error (employees (final r)) = Some newEmployee /\
    tl (employees (final r)) = employees s /\
    occurrences id (employees (final r)) = S (occurrences id (employees s)) /\
    (occurrences id (employees s) = 0 ->
     occurrences id (employees (final r)) = 1).
Proof.
  intros d newEmployee s r id.
  assert (Hocc : occurrences id (employees (final r))
                 = S (occurrences id (employees s))).
  { change (employees (final r)) with (newEmployee :: employees s).
    subst id. rewrite occurrences_cons, String.eqb_refl. reflexivity. }
  repeat split; try exact Hocc.
  intros H0. rewrite Hocc, H0. reflexivity.
Qed.

Lemma createEmployee_prepends_witness :
  let e := sampleEmployee "x1" "A" in
  let s := cacheOf [sampleEmployee "a" "A"; sampleEmployee "b" "B"] None in
  let r := createEmployee (sampleData "A") (fulfilledWith e) s in
  occurrences "x1" (employees (final r)) = 1.
Proof.
  intros e s r.
  apply (createEmployee_prepends (sampleData "A") e s).
  reflexivity.
Defined.

(** C5. A successful [updateEmployee(id, partialData)] keeps the length of
    the cached list and, at every position, puts the server's record where
    the entry's identifier is [id] and leaves the entry as it was
    otherwise. *)
Theorem updateEmployee_replaces_in_place :
  forall (id : string) (employeeData : PartialEmployee.t)
         (updatedEmployee : Employee.t) (s : State),
    let r := updateEmployee id employeeData (fulfilledWith updatedEmployee) s in
    completion r = Return updatedEmployee /\
    length (employees (final r)) = length (employees s) /\
    forall i : nat,
      nth_error (employees (final r)) i =
      option_map
        (fun emp => if Employee._id emp =? id then updatedEmployee else emp)
        (nth_error (employees s) i).
Proof.
  intros id d updatedEmployee s r. subst r. cbn.
  split; [reflexivity|]. split.
  - apply length_map.
  - intros i. apply nth_error_map.
Qed.

(** ** The current employee *)

(** C6. Every failing run of [fetchEmployee(id)] rejects with an [Error]
    whose message is a non-empty string, and [currentEmployee] is after the
    call what it was before. *)
Theorem fetchEmployee_failure_keeps_currentEmployee :
  forall (id : string) (reply : AxiosResult (Envelope.t Employee.t)) (s : State),
    fails (FetchEmployee id reply) = true ->
    let r := fetchEmployee id reply s in
    exists msg : string,
      completion r = Throw (Error msg) /\
      msg <> "" /\
      currentEmployee (final r) = currentEmployee s.
Proof.
  intros id reply s Hf r. subst r.
  by_reply reply; try discriminate Hf;
    (eexists; split; [reflexivity|]; split; [|reflexivity]).
  - discriminate.
  - apply or_fallback_nonempty. discriminate.
Qed.

Lemma fetchEmployee_failure_keeps_currentEmployee_witness :
  let cur := Some (sampleEmployee "a" "A") in
  let s := cacheOf [sampleEmployee "a" "A"] cur in
  let r := fetchEmployee "unknown" (rejectedWith "Employee not found") s in
  exists msg : string,
    completion r = Throw (Error msg) /\ msg <> "" /\
    currentEmployee (final r) = cur.
Proof.
  intros cur s r.
  apply (fetchEmployee_failure_keeps_currentEmployee
           "unknown" (rejectedWith "Employee not found") s).
  reflexivity.
Defined.

(** C7. No run of [generateQRCode(id)], successful or failing, changes the
    cached list or [currentEmployee]; a successful run returns the
    [qrCodeDataUrl] of the response envelope. *)
Theorem generateQRCode_frame :
  forall (id : string) (reply : AxiosResult (Envelope.t QrPayload.t))
         (payload : QrPayload.t) (s : State),
    let r := generateQRCode id reply s in
    let ok := generateQRCode id (fulfilledWith payload) s in
    employees (final r) = employees s /\
    currentEmployee (final r) = currentEmployee s /\
    completion ok = Return (QrPayload.qrCodeDataUrl payload) /\
    (fails (GenerateQRCode id reply) = false ->
     exists p, reply = fulfilledWith p /\
               completion r = Return (QrPayload.qrCodeDataUrl p)).
Proof.
  intros id reply payload s r ok. subst r ok.
  by_reply reply; repeat split; try discriminate.
  intros _. destruct body as [p]. exists p. split; reflexivity.
Qed.

Lemma generateQRCode_frame_witness :
  let reply := fulfilledWith (QrPayload.mk "data:image/png;base64,AAAA") in
  let r := generateQRCode "a" reply initialState in
  exists p, reply = fulfilledWith p /\
            completion r = Return (QrPayload.qrCodeDataUrl p).
Proof.
  intros reply r.
  apply (generateQRCode_frame "a" reply (QrPayload.mk "u") initialState).
  reflexivity.
Defined.

(** C9. [deleteEmployee] never writes [currentEmployee]: after a successful
    deletion of the employee currently viewed, [currentEmployee] still
    holds the deleted record, while the cached list no longer has an entry
    with its identifier. *)
Theorem deleteEmployee_keeps_currentEmployee :
  forall (id : string) (response : AxiosResponse.t MessageBody.t)
         (cur : Employee.t) (l : list Employee.t) (ld : bool)
         (err : option string) (s : State),
    let r := deleteEmployee id (Fulfilled response) s in
    let viewed := {| employees := l; currentEmployee := Some cur;
                     loading := ld; error := err |} in
    let r' := deleteEmployee (Employee._id cur) (Fulfilled response) viewed in
    completion r = Return tt /\
    currentEmployee (final r) = currentEmployee s /\
    completion r' = Return tt /\
    currentEmployee (final r') = Some cur /\
    occurrences (Employee._id cur) (employees (final r')) = 0.
Proof.
  intros id response cur l ld err s r viewed r'.
  repeat split. apply occurrences_after_filter.
Qed.

(** ** The shared flags *)

(** C8. Every operation starts by [setLoading(true)] and ends by
    [setLoading(false)], on success and on failure alike, and touches the
    flag nowhere in between.  The cells follow the events: the flag is
    [true] once the first half of the operation has run (when the request
    is in flight) and at every later point of the run up to the last
    event, and whatever the flag was before, it is [false] once the
    operation has settled. *)
Theorem loading_brackets_every_operation :
  forall (c : Call) (s : State),
    let r := invoke c s in
    let mid := removelast (tl (trace r)) in
    trace r = SetLoading true :: mid ++ [SetLoading false] /\
    existsb is_SetLoading mid = false /\
    loading (final r) = false /\
    final r = replay (trace r) s /\
    forallb loading (inner_states (trace r) s) = true /\
    r = (started c ;; settled c) s /\
    loading (final (started c s)) = true /\
    (forall s' : State, loading (final (settled c s')) = false).
Proof.
  intros c s r mid. subst mid r.
  by_call c; repeat split.
Qed.

(** C10 as stated fails: the error slot is shared.  A [createEmployee]
    clears it at its start and succeeds, but a [fetchEmployee] that fails
    while the creation awaits its reply has written its message meanwhile,
    and the second half of the creation does not clear it. *)
Lemma success_can_end_with_overlapping_error :
  let create := CreateEmployee (sampleData "A")
                  (fulfilledWith (sampleEmployee "x1" "A")) in
  let lookup := FetchEmployee "unknown" (rejectedWith "Employee not found") in
  let pending := after [Begins create; Begins lookup; Settles lookup] initialState in
  fails create = false /\
  error (after [Begins create] initialState) = None /\
  completion (settled create pending) = Return (AnEmployee (sampleEmployee "x1" "A")) /\
  error (after [Begins create; Begins lookup; Settles lookup; Settles create]
               initialState)
  = Some "Employee not found" /\
  error (after [Begins create; Begins lookup; Settles lookup; Settles create]
               initialState)
  <> None.
Proof.
  cbn. repeat split. discriminate.
Qed.

(** C10, amended. Every operation calls [setError(null)] right after
    [setLoading(true)] and before its one request, so the slot is [null]
    when the request is in flight.  After a successful run that no other
    operation overlaps the slot is [null], whatever message an earlier
    operation left there.  The second half of a successful run does not
    write the slot at all: it leaves there what it finds when the reply
    arrives. *)
Theorem error_cleared_before_request :
  forall (c : Call) (s : State),
    let r := invoke c s in
    (exists m url body rest,
        trace r = SetLoading true :: SetError None :: Request m url body :: rest /\
        existsb is_Request rest = false) /\
    (fails c = false -> error (final r) = None) /\
    r = (started c ;; settled c) s /\
    final r = replay (trace r) s /\
    error (final (started c s)) = None /\
    (fails c = false ->
     forall s' : State, error (final (settled c s')) = error s').
Proof.
  intros c s r. subst r. split; [|split; [|split; [|split; [|split]]]].
  - by_call c; do 4 eexists; (split; [reflexivity|reflexivity]).
  - intros Hf. by_call c; try discriminate Hf; reflexivity.
  - by_call c; reflexivity.
  - by_call c; reflexivity.
  - destruct c; reflexivity.
  - intros Hf s'. by_call c; try discriminate Hf; reflexivity.
Qed.

Lemma error_cleared_before_request_witness :
  let stale := {| employees := []; currentEmployee := None;
                  loading := false; error := Some "Failed to fetch employee" |} in
  let c := FetchEmployees (fulfilledWith [sampleEmployee "a" "A"]) in
  error (final (invoke c stale)) = None /\
  error (final (settled c stale)) = Some "Failed to fetch employee".
Proof.
  intros stale c.
  pose proof (error_cleared_before_request c stale) as H.
  destruct H as (_ & Hiso & _ & _ & _ & Hhalf).
  split; [exact (Hiso eq_refl) | exact (Hhalf eq_refl stale)].
Defined.

(** * Further properties of the operations *)

(** ** The two halves agree with the whole *)

(** An operation nothing interleaves with is its first half followed by
    its second half. *)
Lemma invoke_is_started_then_settled (c : Call) (s : State) :
  invoke c s = (started c ;; settled c) s.
Proof. by_call c; reflexivity. Qed.

Lemma after_begin_settle_is_invoke (c : Call) (s : State) :
  after [Begins c; Settles c] s = final (invoke c s).
Proof. rewrite invoke_is_started_then_settled. by_call c; reflexivity. Qed.

(** The second half of a successful run never writes the error slot. *)
Lemma settled_success_keeps_error (c : Call) (s : State) :
  fails c = false -> error (final (settled c s)) = error s.
Proof. intros Hf. by_call c; try discriminate Hf; reflexivity. Qed.

(** The second half always ends with the loading flag down. *)
Lemma settled_loading_false (c : Call) (s : State) :
  loading (final (settled c s)) = false.
Proof. by_call c; reflexivity. Qed.

Lemma started_clears_error (c : Call) (s : State) :
  error (final (started c s)) = None /\ loading (final (started c s)) = true.
Proof. destruct c; split; reflexivity. Qed.

Lemma started_keeps_cache (c : Call) (s : State) :
  employees (final (started c s)) = employees s /\
  currentEmployee (final (started c s)) = currentEmployee s.
Proof. destruct c; split; reflexivity. Qed.

Lemma settled_failure_error (c : Call) (s : State) :
  fails c = true ->
  error (final (settled c s)) = Some (or_fallback (body_message c) (fallback c)).
Proof. intros Hf. by_call c; try discriminate Hf; reflexivity. Qed.

(** ** List facts behind the updaters *)

Lemma map_without_match (id : string) (u : Employee.t) (l : list Employee.t) :
  occurrences id l = 0 ->
  map (fun emp => if Employee._id emp =? id then u else emp) l = l.
Proof.
  induction l as [|e l IH]; [reflexivity|].
  rewrite occurrences_cons. cbn [map].
  destruct (Employee._id e =? id); [discriminate|].
  intros H. now rewrite IH.
Qed.

Lemma filter_without_match (id : string) (l : list Employee.t) :
  occurrences id l = 0 ->
  filter (fun emp => negb (Employee._id emp =? id)) l = l.
Proof.
  induction l as [|e l IH]; [reflexivity|].
  rewrite occurrences_cons. cbn [filter].
  destruct (Employee._id e =? id); [discriminate|].
  intros H. cbn [negb]. now rewrite IH.
Qed.

Lemma map_replace_idempotent (id : string) (u : Employee.t) (l : list Employee.t) :
  let f := fun emp => if Employee._id emp =? id then u else emp in
  map f (map f l) = map f l.
Proof.
  intros f. rewrite map_map. apply map_ext. intros emp. subst f. cbn.
  destruct (Employee._id emp =? id) eqn:He; [|now rewrite He].
  destruct (Employee._id u =? id); reflexivity.
Qed.

Lemma map_replace_keeps_ids (id : string) (u : Employee.t) (l : list Employee.t) :
  Employee._id u = id ->
  map Employee._id
      (map (fun emp => if Employee._id emp =? id then u else emp) l)
  = map Employee._id l.
Proof.
  intros Hu. rewrite map_map. apply map_ext. intros emp.
  destruct (Employee._id emp =? id) eqn:He; [|reflexivity].
  apply String.eqb_eq in He. congruence.
Qed.

(** ** What each operation does to the cache *)

(** X1. A successful [fetchEmployees] makes the cached list the server's
    list, whatever was cached before (nothing is merged or kept), and
    leaves [currentEmployee] as it was.  This is so for a run on its own
    and for the half that runs when the reply arrives, on whatever the
    cells hold at that moment. *)
Theorem fetchEmployees_replaces_cache :
  forall (l : list Employee.t) (s s' : State),
    let r := fetchEmployees (fulfilledWith l) s in
    let late := settled (FetchEmployees (fulfilledWith l)) s' in
    completion r = Return tt /\
    employees (final r) = l /\
    currentEmployee (final r) = currentEmployee s /\
    completion late = Return Void /\
    employees (final late) = l /\
    currentEmployee (final late) = currentEmployee s'.
Proof. intros l s s' r late. repeat split. Qed.

(** X2. A failing run of any operation leaves the cached list and
    [currentEmployee] exactly as they were. *)
Theorem failing_run_keeps_cache :
  forall (c : Call) (s : State),
    fails c = true ->
    employees (final (invoke c s)) = employees s /\
    currentEmployee (final (invoke c s)) = currentEmployee s.
Proof.
  intros c s Hf. by_call c; try discriminate Hf; split; reflexivity.
Qed.

Lemma failing_run_keeps_cache_witness :
  let s := cacheOf [sampleEmployee "a" "A"; sampleEmployee "b" "B"]
                   (Some (sampleEmployee "a" "A")) in
  let c := DeleteEmployee "a" (rejectedWith "Employee not found") in
  employees (final (invoke c s)) = employees s /\
  currentEmployee (final (invoke c s)) = currentEmployee s.
Proof.
  intros s c. apply (failing_run_keeps_cache c s). reflexivity.
Defined.

(** X3. After a failing run of any operation, [fetchEmployees] included,
    the error slot holds a non-empty string and the loading flag is
    down. *)
Theorem failing_run_leaves_nonempty_error :
  forall (c : Call) (s : State),
    fails c = true ->
    exists msg : string,
      error (final (invoke c s)) = Some msg /\ msg <> "" /\
      loading (final (invoke c s)) = false.
Proof.
  intros c s Hf. exists (or_fallback (body_message c) (fallback c)).
  split; [apply failing_run_error_slot, Hf|]. split.
  - apply or_fallback_nonempty, fallback_nonempty.
  - by_call c; reflexivity.
Qed.

Lemma failing_run_leaves_nonempty_error_witness :
  let c := FetchEmployees (Fulfilled (AxiosResponse.mk None)) in
  exists msg : string,
    error (final (invoke c initialState)) = Some msg /\ msg <> "" /\
    loading (final (invoke c initialState)) = false.
Proof.
  intros c. apply (failing_run_leaves_nonempty_error c initialState).
  reflexivity.
Defined.

(** X4. A successful [fetchEmployee(id)] returns the record of the
    envelope and makes it [currentEmployee], whatever its identifier; the
    cached list is not touched, so an entry of the list with the same
    identifier keeps its old content. *)
Theorem fetchEmployee_sets_currentEmployee_only :
  forall (id : string) (employee : Employee.t) (s : State),
    let r := fetchEmployee id (fulfilledWith employee) s in
    completion r = Return employee /\
    currentEmployee (final r) = Some employee /\
    employees (final r) = employees s /\
    error (final r) = None.
Proof. intros id employee s r. repeat split. Qed.

(** X5. [currentEmployee] is written by [fetchEmployee] alone: no run of
    any other operation changes it, so after [updateEmployee] of the
    employee on display [currentEmployee] still holds the old record. *)
Theorem only_fetchEmployee_writes_currentEmployee :
  forall (c : Call) (s : State),
    is_FetchEmployee c = false ->
    currentEmployee (final (invoke c s)) = currentEmployee s.
Proof.
  intros c s Hc. by_call c; try discriminate Hc; reflexivity.
Qed.

Lemma only_fetchEmployee_writes_currentEmployee_witness :
  let old := sampleEmployee "a" "A" in
  let s := cacheOf [old] (Some old) in
  let c := UpdateEmployee "a" emptyPatch (fulfilledWith (sampleEmployee "a" "A2")) in
  currentEmployee (final (invoke c s)) = Some old.
Proof.
  intros old s c.
  apply (only_fetchEmployee_writes_currentEmployee c s). reflexivity.
Defined.

(** X6. [updateEmployee(id, ...)] does not insert: when no cached entry
    carries [id], a successful run returns the server's record and leaves
    the cached list unchanged. *)
Theorem updateEmployee_without_match_keeps_list :
  forall (id : string) (employeeData : PartialEmployee.t)
         (updatedEmployee : Employee.t) (s : State),
    occurrences id (employees s) = 0 ->
    let r := updateEmployee id employeeData (fulfilledWith updatedEmployee) s in
    completion r = Return updatedEmployee /\
    employees (final r) = employees s.
Proof.
  intros id d u s H0 r. split; [reflexivity|].
  subst r. cbn. now apply map_without_match.
Qed.

Lemma updateEmployee_without_match_keeps_list_witness :
  let s := cacheOf [sampleEmployee "a" "A"; sampleEmployee "b" "B"] None in
  let u := sampleEmployee "zz" "Z" in
  let r := updateEmployee "zz" emptyPatch (fulfilledWith u) s in
  completion r = Return u /\ employees (final r) = employees s.
Proof.
  intros s u r.
  apply (updateEmployee_without_match_keeps_list "zz" emptyPatch u s).
  reflexivity.
Defined.

(** X7. Applying the same successful [updateEmployee] a second time
    changes nothing: the cached list after two runs is the list after
    one. *)
Theorem updateEmployee_idempotent :
  forall (id : string) (employeeData : PartialEmployee.t)
         (updatedEmployee : Employee.t) (s : State),
    let c := UpdateEmployee id employeeData (fulfilledWith updatedEmployee) in
    employees (thenInvoke c (thenInvoke c s)) = employees (thenInvoke c s).
Proof.
  intros id d u s c. subst c. unfold thenInvoke. cbn.
  apply map_replace_idempotent.
Qed.

(** X8. When the record the server returns carries the identifier that was
    updated, a successful [updateEmployee] leaves the sequence of
    identifiers of the cached list unchanged. *)
Theorem updateEmployee_keeps_identifiers :
  forall (id : string) (employeeData : PartialEmployee.t)
         (updatedEmployee : Employee.t) (s : State),
    Employee._id updatedEmployee = id ->
    let r := updateEmployee id employeeData (fulfilledWith updatedEmployee) s in
    map Employee._id (employees (final r)) = map Employee._id (employees s).
Proof.
  intros id d u s Hu r. subst r. cbn. now apply map_replace_keeps_ids.
Qed.

Lemma updateEmployee_keeps_identifiers_witness :
  let s := cacheOf [sampleEmployee "a" "A"; sampleEmployee "b" "B"] None in
  let r := updateEmployee "b" emptyPatch (fulfilledWith (sampleEmployee "b" "B2")) s in
  map Employee._id (employees (final r)) = ["a"; "b"].
Proof.
  intros s r.
  apply (updateEmployee_keeps_identifiers "b" emptyPatch (sampleEmployee "b" "B2") s).
  reflexivity.
Defined.

(** X9. [deleteEmployee(id)] with an identifier no cached entry carries
    succeeds all the same and leaves the cached list unchanged. *)
Theorem deleteEmployee_without_match_keeps_list :
  forall (id : string) (response : AxiosResponse.t MessageBody.t) (s : State),
    occurrences id (employees s) = 0 ->
    let r := deleteEmployee id (Fulfilled response) s in
    completion r = Return tt /\ employees (final r) = employees s.
Proof.
  intros id response s H0 r. split; [reflexivity|].
  subst r. cbn. now apply filter_without_match.
Qed.

Lemma deleteEmployee_without_match_keeps_list_witness :
  let s := cacheOf [sampleEmployee "a" "A"; sampleEmployee "b" "B"] None in
  let r := deleteEmployee "zz" (Fulfilled (AxiosResponse.mk None)) s in
  completion r = Return tt /\ employees (final r) = employees s.
Proof.
  intros s r.
  apply (deleteEmployee_without_match_keeps_list "zz" (AxiosResponse.mk None) s).
  reflexivity.
Defined.

(** X10. Deleting the same identifier twice, both runs successful, leaves
    the cached list as the first deletion left it. *)
Theorem deleteEmployee_idempotent :
  forall (id : string) (response1 response2 : AxiosResponse.t MessageBody.t)
         (s : State),
    let first := DeleteEmployee id (Fulfilled response1) in
    let second := DeleteEmployee id (Fulfilled response2) in
    employees (thenInvoke second (thenInvoke first s))
    = employees (thenInvoke first s).
Proof.
  intros id response1 response2 s first second.
  subst first second. unfold thenInvoke. cbn. apply filter_idempotent.
Qed.

(** X11. Creating an employee and then deleting it by the identifier the
    server assigned gives back the cached list one started from, provided
    no cached entry carried that identifier. *)
Theorem create_then_delete_restores_list :
  forall (employeeData : EmployeeData.t) (newEmployee : Employee.t)
         (response : AxiosResponse.t MessageBody.t) (s : State),
    occurrences (Employee._id newEmployee) (employees s) = 0 ->
    let create := CreateEmployee employeeData (fulfilledWith newEmployee) in
    let delete := DeleteEmployee (Employee._id newEmployee) (Fulfilled response) in
    employees (thenInvoke delete (thenInvoke create s)) = employees s.
Proof.
  intros d e response s H0 create delete.
  subst create delete. unfold thenInvoke. cbn.
  rewrite String.eqb_refl. cbn. now apply filter_without_match.
Qed.

Lemma create_then_delete_restores_list_witness :
  let e := sampleEmployee "x1" "A" in
  let s := cacheOf [sampleEmployee "a" "A"; sampleEmployee "b" "B"] None in
  let create := CreateEmployee (sampleData "A") (fulfilledWith e) in
  let delete := DeleteEmployee "x1" (Fulfilled (AxiosResponse.mk None)) in
  employees (thenInvoke delete (thenInvoke create s)) = employees s.
Proof.
  intros e s create delete.
  apply (create_then_delete_restores_list
           (sampleData "A") e (AxiosResponse.mk None) s).
  reflexivity.
Defined.

(** X12. The identifier is put into the URL as it is: [fetchEmployee] of
    an identifier ending in ["/qr"] sends the very request
    [generateQRCode] sends for the identifier before that suffix. *)
Theorem fetchEmployee_url_collides_with_qr :
  forall (id : string)
         (reply1 : AxiosResult (Envelope.t Employee.t))
         (reply2 : AxiosResult (Envelope.t QrPayload.t))
         (s1 s2 : State),
    requestOf (fetchEmployee (id ++ "/qr") reply1 s1)
    = Some (Request GET ("/employees/" ++ id ++ "/qr") NoBody) /\
    requestOf (generateQRCode id reply2 s2)
    = requestOf (fetchEmployee (id ++ "/qr") reply1 s1).
Proof.
  intros id reply1 reply2 s1 s2.
  by_reply reply1; by_reply reply2; split; reflexivity.
Qed.

(** ** Operations that overlap *)

(** X13. The loading flag is shared: when two operations are pending, the
    flag is up, and it goes down as soon as the first of them settles,
    while the request of the other is still in flight. *)
Theorem loading_drops_while_request_pending :
  forall (c1 c2 : Call) (s : State),
    loading (after [Begins c1; Begins c2] s) = true /\
    loading (after [Begins c1; Begins c2; Settles c1] s) = false /\
    loading (after [Begins c1; Begins c2; Settles c2] s) = false.
Proof.
  intros c1 c2 s. cbn. split; [apply started_clears_error|].
  split; apply settled_loading_false.
Qed.

(** X14. The error slot is shared and only a start clears it: when a
    failing operation settles before an overlapping successful one, its
    message is still in the slot after both have settled; run one after
    the other, the same two operations leave the slot null. *)
Theorem late_success_keeps_earlier_error :
  forall (c1 c2 : Call) (s : State),
    fails c1 = true ->
    fails c2 = false ->
    error (after [Begins c1; Begins c2; Settles c1; Settles c2] s)
    = Some (or_fallback (body_message c1) (fallback c1)) /\
    error (after [Begins c1; Settles c1; Begins c2; Settles c2] s) = None.
Proof.
  intros c1 c2 s H1 H2. cbn. split.
  - rewrite (settled_success_keeps_error c2 _ H2).
    apply settled_failure_error, H1.
  - rewrite (settled_success_keeps_error c2 _ H2).
    apply started_clears_error.
Qed.

Lemma late_success_keeps_earlier_error_witness :
  let c1 := FetchEmployee "unknown" (rejectedWith "Employee not found") in
  let c2 := FetchEmployees (fulfilledWith [sampleEmployee "a" "A"]) in
  error (after [Begins c1; Begins c2; Settles c1; Settles c2] initialState)
  = Some "Employee not found" /\
  error (after [Begins c1; Settles c1; Begins c2; Settles c2] initialState) = None.
Proof.
  intros c1 c2.
  apply (late_success_keeps_earlier_error c1 c2 initialState); reflexivity.
Defined.

(** X15. Two overlapping successful [createEmployee] calls lose nothing:
    both records are cached in front of the earlier entries, the one whose
    reply arrived last first. *)
Theorem overlapping_creates_are_both_cached :
  forall (d1 d2 : EmployeeData.t) (e1 e2 : Employee.t) (s : State),
    let c1 := CreateEmployee d1 (fulfilledWith e1) in
    let c2 := CreateEmployee d2 (fulfilledWith e2) in
    employees (after [Begins c1; Begins c2; Settles c1; Settles c2] s)
    = e2 :: e1 :: employees s /\
    employees (after [Begins c1; Begins c2; Settles c2; Settles c1] s)
    = e1 :: e2 :: employees s.
Proof. intros d1 d2 e1 e2 s c1 c2. split; reflexivity. Qed.

(** X16. A list fetch overlapping a creation: if the list arrives last,
    the cache is the server's list and the prepended record is gone from
    it unless the list has it; if the list arrives first, the record is
    prepended to the server's list, and is there twice when the list
    already had it. *)
Theorem list_fetch_overlapping_create :
  forall (employeeData : EmployeeData.t) (newEmployee : Employee.t)
         (l : list Employee.t) (s : State),
    let create := CreateEmployee employeeData (fulfilledWith newEmployee) in
    let fetch := FetchEmployees (fulfilledWith l) in
    let id := Employee._id newEmployee in
    employees (after [Begins create; Begins fetch; Settles create; Settles fetch] s)
    = l /\
    employees (after [Begins create; Begins fetch; Settles fetch; Settles create] s)
    = newEmployee :: l /\
    occurrences id
      (employees (after [Begins create; Begins fetch; Settles fetch; Settles create] s))
    = S (occurrences id l).
Proof.
  intros d e l s create fetch id. split; [reflexivity|]. split; [reflexivity|].
  change (employees (after [Begins create; Begins fetch; Settles fetch;
                            Settles create] s)) with (e :: l).
  subst id. rewrite occurrences_cons, String.eqb_refl. reflexivity.
Qed.

(** X18. Of two overlapping successful [fetchEmployee] calls, the one whose
    reply arrives last decides [currentEmployee], also when it is the call
    that was made first. *)
Theorem last_settled_fetchEmployee_wins :
  forall (id1 id2 : string) (e1 e2 : Employee.t) (s : State),
    let c1 := FetchEmployee id1 (fulfilledWith e1) in
    let c2 := FetchEmployee id2 (fulfilledWith e2) in
    currentEmployee (after [Begins c1; Begins c2; Settles c2; Settles c1] s)
    = Some e1 /\
    currentEmployee (after [Begins c1; Begins c2; Settles c1; Settles c2] s)
    = Some e2.
Proof. intros id1 id2 e1 e2 s c1 c2. split; reflexivity. Qed.

(** ** The hook *)

(** X17. [useEmployee] returns normally exactly under a provider, and then
    hands out that provider's four cells; without a provider it throws an
    [Error] with a non-empty message. *)
Theorem useEmployee_requires_provider :
  forall provider : option State,
    (exists s, provider = Some s /\
               useEmployee provider = Return (value s) /\
               EmployeeContextType.employees (value s) = employees s /\
               EmployeeContextType.currentEmployee (value s) = currentEmployee s /\
               EmployeeContextType.loading (value s) = loading s /\
               EmployeeContextType.error (value s) = error s) \/
    (provider = None /\
     exists msg, useEmployee provider = Throw (Error msg) /\ msg <> "").
Proof.
  intros [s|].
  - left. exists s. repeat split.
  - right. split; [reflexivity|]. eexists. split; [reflexivity|discriminate].
Qed.
